(** * Sonicare BLE: advertisement parsing, characteristic decoding, poll cadence

    A shallow embedding of [sonicare_ble/parser.py].  The class
    [SonicareBluetoothDeviceData] is a record that is threaded through its
    methods; Python exceptions are values of [result]; the BLE transport
    (bleak) is an interface whose calls step an abstract client state. *)

From stdpp Require Import gmap strings list fin_maps pretty.
From Stdlib Require Import Floats Strings.Byte Strings.Ascii.

Local Open Scope string_scope.

(** ** Exceptions and fallible computations *)

(** The subclasses of Python's [Exception] that the modelled calls raise.
    Signals that derive from [BaseException] only (task cancellation,
    interpreter exit) are outside this model. *)
Inductive Exception : Type :=
  | IndexError
  | AttributeError
  | BleakError (msg : string).

Inductive result (A : Type) : Type :=
  | Ok (a : A)
  | Raise (e : Exception).
Arguments Ok {A} a.
Arguments Raise {A} e.

#[global] Instance result_ret : MRet result := fun A a => Ok a.
#[global] Instance result_bind : MBind result := fun A B f m =>
  match m with
  | Ok a => f a
  | Raise e => Raise e
  end.

Definition is_Ok {A} (r : result A) : Prop := exists a, r = Ok a.

(** ** Bytes *)

Abbreviation bytes := (list byte).

Definition byte_to_Z (b : byte) : Z := Z.of_N (Byte.to_N b).

(** [value[i]] for a non-negative literal index: the byte as an int, or
    [IndexError] past the end. *)
Definition bytes_getitem (value : bytes) (i : nat) : result Z :=
  match value !! i with
  | Some b => Ok (byte_to_Z b)
  | None => Raise IndexError
  end.

(** ** Floats as Python compares them *)

Definition float_le (x y : float) : Prop := (x <=? y)%float = true.
Definition float_gt (x y : float) : Prop := (y <? x)%float = true.
Definition float_eq (x y : float) : Prop := (x =? y)%float = true.

(** ** The sensor-state accumulator the class inherits

    [BluetoothData] (package bluetooth_sensor_state_data) and its base
    [SensorData] (package sensor_state_data) are dependencies of the
    repository.  Only what the parser calls is modelled: the setters, the
    sensor update and [_finish_update].  Every call of the parser leaves
    [device_id] at its default [None], so the per-device dictionaries are
    represented by their entry for that one device and sensor dictionaries
    are keyed by the sensor key alone. *)
Module SensorStateData.

Inductive Units : Type :=
  | PERCENTAGE
  | SIGNAL_STRENGTH_DECIBELS_MILLIWATT
  | TIME_SECONDS.

Inductive SensorDeviceClass : Type :=
  | BATTERY
  | SIGNAL_STRENGTH
  | DURATION.

(** A native value is an int or a str in this program. *)
Inductive NativeValue : Type :=
  | VInt (n : Z)
  | VStr (s : string).

Record SensorDescription : Type := {
  sd_device_class : option SensorDeviceClass;
  sd_native_unit_of_measurement : option Units
}.

Record SensorValue : Type := {
  sv_name : string;
  sv_native_value : NativeValue
}.

Record BinarySensorValue : Type := {
  bv_name : string;
  bv_native_value : bool
}.

Record SensorData : Type := {
  _device_name : option string;
  _device_type : option string;
  _device_manufacturer : option string;
  _title : option string;
  _descriptions_updates : gmap string SensorDescription;
  _sensor_values_updates : gmap string SensorValue;
  _binary_sensor_values_updates : gmap string BinarySensorValue
}.

Definition empty : SensorData := {|
  _device_name := None;
  _device_type := None;
  _device_manufacturer := None;
  _title := None;
  _descriptions_updates := ∅;
  _sensor_values_updates := ∅;
  _binary_sensor_values_updates := ∅
|}.

Definition set_device_manufacturer (manufacturer : string) (s : SensorData) : SensorData := {|
  _device_name := _device_name s;
  _device_type := _device_type s;
  _device_manufacturer := Some manufacturer;
  _title := _title s;
  _descriptions_updates := _descriptions_updates s;
  _sensor_values_updates := _sensor_values_updates s;
  _binary_sensor_values_updates := _binary_sensor_values_updates s
|}.

Definition set_device_type (device_type : string) (s : SensorData) : SensorData := {|
  _device_name := _device_name s;
  _device_type := Some device_type;
  _device_manufacturer := _device_manufacturer s;
  _title := _title s;
  _descriptions_updates := _descriptions_updates s;
  _sensor_values_updates := _sensor_values_updates s;
  _binary_sensor_values_updates := _binary_sensor_values_updates s
|}.

Definition set_device_name (name : string) (s : SensorData) : SensorData := {|
  _device_name := Some name;
  _device_type := _device_type s;
  _device_manufacturer := _device_manufacturer s;
  _title := _title s;
  _descriptions_updates := _descriptions_updates s;
  _sensor_values_updates := _sensor_values_updates s;
  _binary_sensor_values_updates := _binary_sensor_values_updates s
|}.

Definition set_title (title : string) (s : SensorData) : SensorData := {|
  _device_name := _device_name s;
  _device_type := _device_type s;
  _device_manufacturer := _device_manufacturer s;
  _title := Some title;
  _descriptions_updates := _descriptions_updates s;
  _sensor_values_updates := _sensor_values_updates s;
  _binary_sensor_values_updates := _binary_sensor_values_updates s
|}.

(** [update_sensor(key, native_unit_of_measurement, native_value,
    device_class, name)]: the description and the value stored under
    [key] are both overwritten. *)
Definition update_sensor (key : string) (native_unit_of_measurement : option Units)
    (native_value : NativeValue) (device_class : option SensorDeviceClass)
    (name : string) (s : SensorData) : SensorData := {|
  _device_name := _device_name s;
  _device_type := _device_type s;
  _device_manufacturer := _device_manufacturer s;
  _title := _title s;
  _descriptions_updates :=
    <[key := {| sd_device_class := device_class;
                sd_native_unit_of_measurement := native_unit_of_measurement |}]>
      (_descriptions_updates s);
  _sensor_values_updates :=
    <[key := {| sv_name := name; sv_native_value := native_value |}]>
      (_sensor_values_updates s);
  _binary_sensor_values_updates := _binary_sensor_values_updates s
|}.

Record SensorDeviceInfo : Type := {
  di_name : option string;
  di_model : option string;
  di_manufacturer : option string
}.

Record SensorUpdate : Type := {
  title : option string;
  devices : SensorDeviceInfo;
  entity_descriptions : gmap string SensorDescription;
  entity_values : gmap string SensorValue;
  binary_entity_values : gmap string BinarySensorValue
}.

Definition _finish_update (s : SensorData) : SensorUpdate := {|
  title := _title s;
  devices := {| di_name := _device_name s;
                di_model := _device_type s;
                di_manufacturer := _device_manufacturer s |};
  entity_descriptions := _descriptions_updates s;
  entity_values := _sensor_values_updates s;
  binary_entity_values := _binary_sensor_values_updates s
|}.

End SensorStateData.
Export SensorStateData.

(** ** Enumerations and tables of the parser *)

Inductive SonicareSensor : Type :=
  | BATTERY_LEVEL
  | BRUSHING_TIME
  | HANDLE_TIME
  | HANDLE_SESSION_STATE
  | BRUSHING_SESSION_ID
  | LOADED_SESSION_ID
  | INTENSITY
  | AVAILABLE_BRUSHING_ROUTINE
  | ROUTINE_LENGTH
  | SIGNAL_STRENGTH_SENSOR.

(** [str(member)] of the [StrEnum]: the member's value. *)
Definition str_SonicareSensor (s : SonicareSensor) : string :=
  match s with
  | BATTERY_LEVEL => "battery_level"
  | BRUSHING_TIME => "brushing_time"
  | HANDLE_TIME => "handle_time"
  | HANDLE_SESSION_STATE => "handle_session_state"
  | BRUSHING_SESSION_ID => "brushing_session_id"
  | LOADED_SESSION_ID => "loaded_session_id"
  | INTENSITY => "intensity"
  | AVAILABLE_BRUSHING_ROUTINE => "available_brushing_routine"
  | ROUTINE_LENGTH => "routine_length"
  | SIGNAL_STRENGTH_SENSOR => "signal_strength"
  end.

Inductive SonicareBinarySensor : Type :=
  | BRUSHING.

Definition str_SonicareBinarySensor (s : SonicareBinarySensor) : string :=
  match s with
  | BRUSHING => "brushing"
  end.

Inductive Models : Type :=
  | HX6340.

Record ModelDescription : Type := {
  device_type : string
}.

Definition DEVICE_TYPES (m : Models) : ModelDescription :=
  match m with
  | HX6340 => {| device_type := "HX6340" |}
  end.

Definition STATES : gmap Z string :=
  list_to_map
    [ (0, "off");
      (1, "standby");
      (2, "brushing");
      (3, "charging");
      (4, "shutdown");
      (5, "validate");
      (6, "unknown6");
      (7, "unknown7") ]%Z.

Definition SONICARE_MANUFACTURER : Z := 477.

(** ** Constants of [const.py]

    The module [sonicare_ble.const] supplies the characteristic
    identifiers and the three cadence constants; they are parameters
    here.  The cadence constants are numbers of seconds, taken as
    floats. *)
Record Const : Type := {
  CHARACTERISTIC_BATTERY_LEVEL : string;
  CHARACTERISTIC_BRUSHING_TIME : string;
  CHARACTERISTIC_UPDATED_HANDLE_SESSION_STATE : string;
  CHARACTERISTIC_LOADED_SESSION_ID : string;
  CHARACTERISTIC_AVAILABLE_BRUSHING_ROUTINE_4080 : string;
  CHARACTERISTIC_INTENSITY : string;
  CHARACTERISTIC_ROUTINE_LENGTH : string;
  NOT_BRUSHING_UPDATE_INTERVAL_SECONDS : float;
  TIMEOUT_RECENTLY_BRUSHING : float;
  BRUSHING_UPDATE_INTERVAL_SECONDS : float
}.

(** The identifiers the dispatch compares against, in the order of its
    branches. *)
Definition known_characteristics (K : Const) : list string :=
  [ CHARACTERISTIC_BATTERY_LEVEL K;
    CHARACTERISTIC_UPDATED_HANDLE_SESSION_STATE K;
    CHARACTERISTIC_BRUSHING_TIME K;
    CHARACTERISTIC_AVAILABLE_BRUSHING_ROUTINE_4080 K;
    CHARACTERISTIC_ROUTINE_LENGTH K;
    CHARACTERISTIC_INTENSITY K;
    CHARACTERISTIC_LOADED_SESSION_ID K ].

(** ** The advertisement *)

Record BluetoothServiceInfo : Type := {
  manufacturer_data : gmap Z bytes;
  address : string
}.

(** ** The device data object *)

Record SonicareBluetoothDeviceData : Type := {
  sensor_data : SensorData;
  _brushing : bool;
  _last_brush : float
}.

(** [__init__] *)
Definition init : SonicareBluetoothDeviceData := {|
  sensor_data := SensorStateData.empty;
  _brushing := false;
  _last_brush := 0%float
|}.

(** An inherited method runs on the inherited part of the object. *)
Definition on_sensor_data (f : SensorData -> SensorData)
    (self : SonicareBluetoothDeviceData) : SonicareBluetoothDeviceData := {|
  sensor_data := f (sensor_data self);
  _brushing := _brushing self;
  _last_brush := _last_brush self
|}.


(** ** The methods of [SonicareBluetoothDeviceData] *)

Section Parser.

(** The constants of [const.py]. *)
Variable K : Const.

(** [bluetooth_data_tools.short_address], a dependency of the repository,
    with the signature it declares ([str -> str]). *)
Variable short_address : string -> string.

(** [_start_update]: update from BLE advertisement data. *)
Definition _start_update (service_info : BluetoothServiceInfo)
    (self : SonicareBluetoothDeviceData) : SonicareBluetoothDeviceData :=
  let manufacturer_data := manufacturer_data service_info in
  let address := address service_info in
  match manufacturer_data !! SONICARE_MANUFACTURER with
  | None => self
  | Some data =>
      let self := on_sensor_data (set_device_manufacturer "Philips Sonicare") self in
      let msg_length := length data in
      if negb (Nat.eqb msg_length 9 || Nat.eqb msg_length 999) then self
      else
        let model := HX6340 in
        let model_info := DEVICE_TYPES model in
        let self := on_sensor_data (set_device_type (device_type model_info)) self in
        let name := device_type model_info +:+ " " +:+ short_address address in
        let self := on_sensor_data (set_device_name name) self in
        on_sensor_data (set_title name) self
  end.

(** [poll_needed]; [now] is the value [time.monotonic()] returns. *)
Definition poll_needed (self : SonicareBluetoothDeviceData) (now : float)
    (service_info : BluetoothServiceInfo) (last_poll : option float) : bool :=
  match last_poll with
  | None => true
  | Some last_poll =>
      let update_interval := NOT_BRUSHING_UPDATE_INTERVAL_SECONDS K in
      let update_interval :=
        if _brushing self
           || (now - _last_brush self <=? TIMEOUT_RECENTLY_BRUSHING K)%float
        then BRUSHING_UPDATE_INTERVAL_SECONDS K
        else update_interval in
      (update_interval <? last_poll)%float
  end.

(** [process_characteristic_value], the closure of [async_poll].  The
    arguments of [update_sensor] are evaluated before the call, so a
    failing [value[0]] leaves the object as it was. *)
Definition process_characteristic_value (characteristic_uuid : string)
    (value : bytes) (self : SonicareBluetoothDeviceData)
    : result SonicareBluetoothDeviceData :=
  if String.eqb characteristic_uuid (CHARACTERISTIC_BATTERY_LEVEL K) then
    v ← bytes_getitem value 0;
    Ok (on_sensor_data
          (update_sensor (str_SonicareSensor BATTERY_LEVEL) (Some PERCENTAGE)
             (VInt v) (Some BATTERY) "Battery") self)
  else if String.eqb characteristic_uuid (CHARACTERISTIC_UPDATED_HANDLE_SESSION_STATE K) then
    v ← bytes_getitem value 0;
    let state := default ("unknown state value " +:+ pretty v) (STATES !! v) in
    Ok (on_sensor_data
          (update_sensor (str_SonicareSensor HANDLE_SESSION_STATE) None
             (VStr state) None "Handle session state") self)
  else if String.eqb characteristic_uuid (CHARACTERISTIC_BRUSHING_TIME K) then
    v ← bytes_getitem value 0;
    Ok (on_sensor_data
          (update_sensor (str_SonicareSensor BRUSHING_TIME) None
             (VInt v) None "Brushing time") self)
  else if String.eqb characteristic_uuid (CHARACTERISTIC_AVAILABLE_BRUSHING_ROUTINE_4080 K) then
    v ← bytes_getitem value 0;
    Ok (on_sensor_data
          (update_sensor (str_SonicareSensor AVAILABLE_BRUSHING_ROUTINE) None
             (VInt v) None "Available brushing routine") self)
  else if String.eqb characteristic_uuid (CHARACTERISTIC_ROUTINE_LENGTH K) then
    v ← bytes_getitem value 0;
    Ok (on_sensor_data
          (update_sensor (str_SonicareSensor ROUTINE_LENGTH) None
             (VInt v) None "Routine length") self)
  else if String.eqb characteristic_uuid (CHARACTERISTIC_INTENSITY K) then
    v ← bytes_getitem value 0;
    Ok (on_sensor_data
          (update_sensor (str_SonicareSensor INTENSITY) None
             (VInt v) None "Intensity") self)
  else if String.eqb characteristic_uuid (CHARACTERISTIC_LOADED_SESSION_ID K) then
    v ← bytes_getitem value 0;
    Ok (on_sensor_data
          (update_sensor (str_SonicareSensor LOADED_SESSION_ID) None
             (VInt v) None "Loaded session id") self)
  else
    Ok self.

End Parser.

(** ** The BLE transport

    What [async_poll] asks of bleak and bleak_retry_connector.  A call
    that awaits the device returns the client's next state together with
    its outcome; [get_characteristic] may return [None]. *)

Record BleakGATTCharacteristic : Type := {
  uuid : string;
  properties : list string
}.

Record Bleak : Type := {
  BLEDevice : Type;
  Client : Type;
  establish_connection : BLEDevice -> result Client;
  services : Client -> list (list BleakGATTCharacteristic);
  get_characteristic : Client -> string -> result (option BleakGATTCharacteristic);
  read_gatt_char : Client -> string -> Client * result bytes;
  start_notify : Client -> string -> Client * result ()
}.

Section Poll.

Variable K : Const.
Variable T : Bleak.

(** What a poll cycle mutates: the client and the device data object. *)
Definition PollState : Type := Client T * SonicareBluetoothDeviceData.

(** A step of the poll: the state it leaves, and its value or the
    exception it raised.  What was mutated before a raise stays mutated. *)
Definition Poll (A : Type) : Type := PollState -> PollState * result A.

Definition poll_ret {A} (a : A) : Poll A := fun s => (s, Ok a).

Definition poll_bind {A B} (m : Poll A) (k : A -> Poll B) : Poll B := fun s =>
  match m s with
  | (s', Ok a) => k a s'
  | (s', Raise e) => (s', Raise e)
  end.

Notation "x <~ m ;; k" := (poll_bind m (fun x => k))
  (at level 100, m at next level, right associativity, only parsing).

Definition poll_lift {A} (r : result A) : Poll A := fun s => (s, r).

Definition on_client {A} (f : Client T -> Client T * result A) : Poll A := fun s =>
  let '(client', r) := f s.1 in ((client', s.2), r).

Definition on_self (f : SonicareBluetoothDeviceData -> result SonicareBluetoothDeviceData)
    : Poll () := fun s =>
  match f s.2 with
  | Ok self' => ((s.1, self'), Ok ())
  | Raise e => (s, Raise e)
  end.

Definition when (b : bool) (m : Poll ()) : Poll () :=
  if b then m else poll_ret ().

(** [value_char.properties]: an attribute of [None] is an
    [AttributeError]. *)
Definition properties_of (value_char : option BleakGATTCharacteristic)
    : result (list string) :=
  match value_char with
  | Some c => Ok (properties c)
  | None => Raise AttributeError
  end.

Definition contains_str (x : string) (l : list string) : bool :=
  bool_decide (x ∈ l).

(** [for x in l: body(x)] *)
Fixpoint for_each {A} (l : list A) (body : A -> Poll ()) : Poll () :=
  match l with
  | [] => poll_ret ()
  | x :: l' => _ <~ body x ;; for_each l' body
  end.

(** [try: body / except Exception: _LOGGER.debug(...)] *)
Definition try_except (body : Poll ()) : Poll () := fun s =>
  match body s with
  | (s', Ok u) => (s', Ok u)
  | (s', Raise _) => (s', Ok ())
  end.

(** The body of the [try] in [async_poll], for one characteristic. *)
Definition poll_characteristic (characteristic : BleakGATTCharacteristic) : Poll () :=
  value_char <~ (fun s => (s, get_characteristic T s.1 (uuid characteristic))) ;;
  props <~ poll_lift (properties_of value_char) ;;
  _ <~ when (contains_str "read" props)
         (value <~ on_client (fun c => read_gatt_char T c (uuid characteristic)) ;;
          on_self (process_characteristic_value K (uuid characteristic) value)) ;;
  _ <~ when (contains_str "indicate" props)
         (on_client (fun c => start_notify T c (uuid characteristic))) ;;
  when (contains_str "notify" props)
    (on_client (fun c => start_notify T c (uuid characteristic))).

(** The two nested loops of [async_poll]. *)
Definition poll_services (l : list (list BleakGATTCharacteristic)) : Poll () :=
  for_each l (fun service =>
    for_each service (fun characteristic =>
      try_except (poll_characteristic characteristic))).

(** [async_poll]: the object after the call, and the snapshot returned or
    the exception raised. *)
Definition async_poll (ble_device : BLEDevice T) (self : SonicareBluetoothDeviceData)
    : SonicareBluetoothDeviceData * result SensorUpdate :=
  match establish_connection T ble_device with
  | Raise e => (self, Raise e)
  | Ok client =>
      match poll_services (services T client) (client, self) with
      | (s', Ok _) => (s'.2, Ok (_finish_update (sensor_data s'.2)))
      | (s', Raise e) => (s'.2, Raise e)
      end
  end.

(** [_async_handle_handle_state], the notification callback. *)
Definition _async_handle_handle_state (characteristic : BleakGATTCharacteristic)
    (data : bytes) (self : SonicareBluetoothDeviceData)
    : result SonicareBluetoothDeviceData :=
  process_characteristic_value K (uuid characteristic) data self.

End Poll.

(** ** Sequences of calls on one object *)

Section Operations.

Variable K : Const.
Variable short_address : string -> string.
Variable T : Bleak.

(** The calls the class answers: the three methods it defines and the
    notification callback it hands to the transport. *)
Inductive Operation : Type :=
  | Call_start_update (service_info : BluetoothServiceInfo)
  | Call_poll_needed (now : float) (service_info : BluetoothServiceInfo)
      (last_poll : option float)
  | Call_async_poll (ble_device : BLEDevice T)
  | Notification (characteristic : BleakGATTCharacteristic) (data : bytes).

(** The object after one call.  A callback that raises has mutated
    nothing. *)
Definition step (self : SonicareBluetoothDeviceData) (op : Operation)
    : SonicareBluetoothDeviceData :=
  match op with
  | Call_start_update service_info => _start_update short_address service_info self
  | Call_poll_needed _ _ _ => self
  | Call_async_poll ble_device => (async_poll K T ble_device self).1
  | Notification characteristic data =>
      match _async_handle_handle_state K characteristic data self with
      | Ok self' => self'
      | Raise _ => self
      end
  end.

Definition run (ops : list Operation) (self : SonicareBluetoothDeviceData)
    : SonicareBluetoothDeviceData :=
  foldl step self ops.

End Operations.

(** ** The decoder as the specification words it

    A tagged value per known characteristic, computed from the first
    byte, and the reading each one records. *)
Module Spec.

Inductive DecodedValue : Type :=
  | BatteryLevel (percentage : Z)
  | HandleSessionState (stateLabel : string)
  | BrushingTime (count : Z)
  | AvailableBrushingRoutine (count : Z)
  | RoutineLength (count : Z)
  | Intensity (count : Z)
  | LoadedSessionId (count : Z)
  | Unrecognized.

(** The fixed 8-entry table, and the synthesized label outside it. *)
Definition state_label (n : Z) : string :=
  match n with
  | 0 => "off"
  | 1 => "standby"
  | 2 => "brushing"
  | 3 => "charging"
  | 4 => "shutdown"
  | 5 => "validate"
  | 6 => "unknown6"
  | 7 => "unknown7"
  | _ => "unknown state value " +:+ pretty n
  end%Z.

Definition decode (K : Const) (characteristicId : string) (first : Z) : DecodedValue :=
  if String.eqb characteristicId (CHARACTERISTIC_BATTERY_LEVEL K) then
    BatteryLevel first
  else if String.eqb characteristicId (CHARACTERISTIC_UPDATED_HANDLE_SESSION_STATE K) then
    HandleSessionState (state_label first)
  else if String.eqb characteristicId (CHARACTERISTIC_BRUSHING_TIME K) then
    BrushingTime first
  else if String.eqb characteristicId (CHARACTERISTIC_AVAILABLE_BRUSHING_ROUTINE_4080 K) then
    AvailableBrushingRoutine first
  else if String.eqb characteristicId (CHARACTERISTIC_ROUTINE_LENGTH K) then
    RoutineLength first
  else if String.eqb characteristicId (CHARACTERISTIC_INTENSITY K) then
    Intensity first
  else if String.eqb characteristicId (CHARACTERISTIC_LOADED_SESSION_ID K) then
    LoadedSessionId first
  else
    Unrecognized.

Definition recordSensor (key : string) (unit : option Units) (value : NativeValue)
    (deviceClass : option SensorDeviceClass) (label : string)
    (acc : SonicareBluetoothDeviceData) : SonicareBluetoothDeviceData :=
  on_sensor_data (update_sensor key unit value deviceClass label) acc.

Definition record (v : DecodedValue) (acc : SonicareBluetoothDeviceData)
    : SonicareBluetoothDeviceData :=
  match v with
  | BatteryLevel p =>
      recordSensor "battery_level" (Some PERCENTAGE) (VInt p) (Some BATTERY) "Battery" acc
  | HandleSessionState l =>
      recordSensor "handle_session_state" None (VStr l) None "Handle session state" acc
  | BrushingTime n =>
      recordSensor "brushing_time" None (VInt n) None "Brushing time" acc
  | AvailableBrushingRoutine n =>
      recordSensor "available_brushing_routine" None (VInt n) None
        "Available brushing routine" acc
  | RoutineLength n =>
      recordSensor "routine_length" None (VInt n) None "Routine length" acc
  | Intensity n =>
      recordSensor "intensity" None (VInt n) None "Intensity" acc
  | LoadedSessionId n =>
      recordSensor "loaded_session_id" None (VInt n) None "Loaded session id" acc
  | Unrecognized => acc
  end.

(** An advertisement that fails validation: the manufacturer ID is absent,
    or its blob has a length other than 9 and 999. *)
Definition rejected (service_info : BluetoothServiceInfo) : Prop :=
  match manufacturer_data service_info !! SONICARE_MANUFACTURER with
  | None => True
  | Some data => length data <> 9 /\ length data <> 999
  end.

(** The poll-cadence state. *)
Record PollCadenceState : Type := {
  isBrushingNow : bool;
  lastBrushingObservedAt : float
}.

Definition cadence (self : SonicareBluetoothDeviceData) : PollCadenceState := {|
  isBrushingNow := _brushing self;
  lastBrushingObservedAt := _last_brush self
|}.

(** The interval of the cadence policy: the brushing interval while
    brushing or within the recent-brushing timeout, the idle interval
    otherwise. *)
Definition interval (K : Const) (state : PollCadenceState) (now : float) : float :=
  if isBrushingNow state
     || (now - lastBrushingObservedAt state <=? TIMEOUT_RECENTLY_BRUSHING K)%float
  then BRUSHING_UPDATE_INTERVAL_SECONDS K
  else NOT_BRUSHING_UPDATE_INTERVAL_SECONDS K.

(** Due, as the specification computes it from a timestamp of the last
    poll: [(now - lastPollTimestamp) > interval]. *)
Definition isPollDue (K : Const) (lastPollTimestamp : option float)
    (state : PollCadenceState) (now : float) : Prop :=
  match lastPollTimestamp with
  | None => True
  | Some t => float_gt (now - t)%float (interval K state now)
  end.

(** A string occurs inside another. *)
Definition occurs_in (part whole : string) : Prop :=
  exists before after, whole = before +:+ part +:+ after.

End Spec.

(** ** Sample data, to run the definitions on *)

(** One assignment of the constants: pairwise distinct identifiers, an
    idle interval of 60 s, a brushing interval and a recent-brushing
    timeout of 5 s. *)
Definition sample_const : Const := {|
  CHARACTERISTIC_BATTERY_LEVEL := "00002a19-0000-1000-8000-00805f9b34fb";
  CHARACTERISTIC_BRUSHING_TIME := "477ea600-a260-11e4-ae37-0002a5d54090";
  CHARACTERISTIC_UPDATED_HANDLE_SESSION_STATE := "477ea600-a260-11e4-ae37-0002a5d54010";
  CHARACTERISTIC_LOADED_SESSION_ID := "477ea600-a260-11e4-ae37-0002a5d54070";
  CHARACTERISTIC_AVAILABLE_BRUSHING_ROUTINE_4080 := "477ea600-a260-11e4-ae37-0002a5d54080";
  CHARACTERISTIC_INTENSITY := "477ea600-a260-11e4-ae37-0002a5d540b0";
  CHARACTERISTIC_ROUTINE_LENGTH := "477ea600-a260-11e4-ae37-0002a5d54091";
  NOT_BRUSHING_UPDATE_INTERVAL_SECONDS := 60%float;
  TIMEOUT_RECENTLY_BRUSHING := 5%float;
  BRUSHING_UPDATE_INTERVAL_SECONDS := 5%float
|}.

Definition upper_ascii (c : ascii) : ascii :=
  let n := nat_of_ascii c in
  if (Nat.leb 97 n && Nat.leb n 122)%bool then ascii_of_nat (n - 32) else c.

Fixpoint upper (s : string) : string :=
  match s with
  | EmptyString => EmptyString
  | String c s' => String (upper_ascii c) (upper s')
  end.

(** [s.replace("-", ":").split(":")], the current group in [cur]. *)
Fixpoint split_groups (s cur : string) : list string :=
  match s with
  | EmptyString => [cur]
  | String c s' =>
      if (Ascii.eqb c ":"%char || Ascii.eqb c "-"%char)%bool
      then cur :: split_groups s' EmptyString
      else split_groups s' (cur +:+ String c EmptyString)
  end.

Definition last_chars (n : nat) (s : string) : string :=
  String.substring (String.length s - n) n s.

(** The short form of a separated address as bluetooth_data_tools gives
    it: the last two groups, upper-cased and joined, cut to their last
    four characters.  An address without a separator, on which the
    library raises, is given the empty string. *)
Definition sample_short_address (address : string) : string :=
  match reverse (split_groups address EmptyString) with
  | g1 :: g2 :: _ => last_chars 4 (upper g2 +:+ upper g1)
  | _ => EmptyString
  end.

Definition sample_service_info (data : bytes) : BluetoothServiceInfo := {|
  manufacturer_data := {[ SONICARE_MANUFACTURER := data ]};
  address := "AA:BB:CC:DD:EE:FF"
|}.

(** Nine arbitrary bytes. *)
Definition nine_bytes : bytes :=
  [x00; x01; x02; x03; x04; x05; x06; x07; x08].

(** A transport with one service of two characteristics, both readable:
    reading the battery level raises, reading the handle session state
    gives [[2]].  The client state counts the subscriptions made; the
    device is [true] when a connection can be established. *)
Definition sample_services : list (list BleakGATTCharacteristic) :=
  [ [ {| uuid := CHARACTERISTIC_BATTERY_LEVEL sample_const;
         properties := ["read"; "notify"] |};
      {| uuid := CHARACTERISTIC_UPDATED_HANDLE_SESSION_STATE sample_const;
         properties := ["read"; "notify"] |} ] ].

Definition sample_transport : Bleak := {|
  BLEDevice := bool;
  Client := nat;
  establish_connection := fun reachable : bool =>
    if reachable then Ok 0 else Raise (BleakError "no connection");
  services := fun _ => sample_services;
  get_characteristic := fun _ u =>
    Ok (find (fun c => String.eqb (uuid c) u) (concat sample_services));
  read_gatt_char := fun (c : nat) u =>
    if String.eqb u (CHARACTERISTIC_UPDATED_HANDLE_SESSION_STATE sample_const)
    then (c, Ok [x02])
    else (c, Raise (BleakError "read failed"));
  start_notify := fun (c : nat) _ => (S c, Ok ())
|}.

(** ** What no call touches

    The cadence fields and the binary-sensor readings of [self'] are
    those of [self]. *)
Definition untouched (self self' : SonicareBluetoothDeviceData) : Prop :=
  _brushing self' = _brushing self
  /\ _last_brush self' = _last_brush self
  /\ _binary_sensor_values_updates (sensor_data self')
     = _binary_sensor_values_updates (sensor_data self).

(** A step of the poll that leaves them as they are, whether it returns
    or raises. *)
Definition keeps_untouched {T : Bleak} {A : Type} (m : Poll T A) : Prop :=
  forall s, untouched s.2 (m s).1.2.

(** The poll state after the [try] of each characteristic in turn, each
    started in the state the one before left, raised or not. *)
Definition after_characteristics (K : Const) (T : Bleak)
    (l : list BleakGATTCharacteristic) (s : PollState T) : PollState T :=
  foldl (fun s characteristic => (poll_characteristic K T characteristic s).1) s l.

(** The brushing flag follows a decoded handle-session-state label. *)
Definition tracks_brushing (stateLabel : string) (self : SonicareBluetoothDeviceData)
    : Prop :=
  _brushing self = true <-> stateLabel = "brushing".

(** ** Identity and readings of the object *)

(** The identity a snapshot would carry: its title and its device
    information. *)
Definition identity (self : SonicareBluetoothDeviceData)
    : option string * SensorDeviceInfo :=
  let snapshot := _finish_update (sensor_data self) in
  (title snapshot, devices snapshot).






(** A step of the poll under which a property of the device data
    persists, whether the step returns or raises. *)
Definition keeps {T : Bleak} {A : Type} (P : SonicareBluetoothDeviceData -> Prop)
    (m : Poll T A) : Prop :=
  forall s, P s.2 -> P (m s).1.2.

(** A transport given by tables: the characteristics its one service
    lists, the characteristics a lookup by identifier finds, and what a
    read of each identifier gives.  The client state counts the calls of
    [start_notify]; every device connects. *)
Definition table_transport (listed registered : list BleakGATTCharacteristic)
    (read : string -> result bytes) : Bleak := {|
  BLEDevice := ();
  Client := nat;
  establish_connection := fun _ => Ok 0;
  services := fun _ => [listed];
  get_characteristic := fun _ u => Ok (find (fun c => String.eqb (uuid c) u) registered);
  read_gatt_char := fun (c : nat) u => (c, read u);
  start_notify := fun (c : nat) _ => (S c, Ok ())
|}.

Definition battery_characteristic (props : list string) : BleakGATTCharacteristic := {|
  uuid := CHARACTERISTIC_BATTERY_LEVEL sample_const;
  properties := props
|}.

(** ** Running the samples *)

Example short_address_colon :
  sample_short_address "AA:BB:CC:DD:EE:FF" = "EEFF".
Proof. reflexivity. Qed.

Example short_address_dash :
  sample_short_address "12345678-abcd-ef01-2345-6789abcdef01" = "EF01".
Proof. reflexivity. Qed.

Example start_update_title :
  _title (sensor_data (_start_update sample_short_address
                         (sample_service_info nine_bytes) init))
  = Some "HX6340 EEFF".
Proof. vm_compute. reflexivity. Qed.

(** * Properties *)

(** ** Tactics and basic facts *)

Ltac case_eqb :=
  match goal with
  | |- context [String.eqb ?a ?b] => destruct (String.eqb_spec a b)
  end.

Lemma eqb_known_false (K : Const) (u : string) (k : string) :
  u ∉ known_characteristics K -> k ∈ known_characteristics K -> String.eqb u k = false.
Proof.
  intros Hu Hk. destruct (String.eqb_spec u k) as [->|]; [contradiction | reflexivity].
Qed.

Lemma msg_length_rejected (n : nat) :
  n <> 9 -> n <> 999 -> negb (Nat.eqb n 9 || Nat.eqb n 999) = true.
Proof.
  intros H9 H999.
  apply Nat.eqb_neq in H9. apply Nat.eqb_neq in H999.
  rewrite H9, H999. reflexivity.
Qed.

(** ** Advertisements *)

(** C1, as stated, fails: an advertisement that carries manufacturer ID
    477 with an empty blob is rejected, and processing it changes the
    device data (the manufacturer is set). *)
Lemma start_update_rejected_mutates :
  Spec.rejected (sample_service_info [])
  /\ _start_update sample_short_address (sample_service_info []) init <> init
  /\ _device_manufacturer
       (sensor_data (_start_update sample_short_address (sample_service_info []) init))
     = Some "Philips Sonicare".
Proof.
  split; [| split].
  - vm_compute. split; discriminate.
  - intros H. apply (f_equal (fun d => _device_manufacturer (sensor_data d))) in H.
    vm_compute in H. discriminate.
  - vm_compute. reflexivity.
Qed.

(** C1, amended: a rejected advertisement sets no device type, no device
    name, no title and no reading, and leaves the cadence state alone.
    Without manufacturer ID 477 the device data is not mutated at all;
    with ID 477 and a rejected length the one mutation is the manufacturer,
    set to "Philips Sonicare". *)
Theorem start_update_rejected (short_address : string -> string)
    (service_info : BluetoothServiceInfo) (self : SonicareBluetoothDeviceData) :
  Spec.rejected service_info ->
  _start_update short_address service_info self
  = match manufacturer_data service_info !! SONICARE_MANUFACTURER with
    | None => self
    | Some _ => on_sensor_data (set_device_manufacturer "Philips Sonicare") self
    end
  /\ let self' := _start_update short_address service_info self in
     _device_type (sensor_data self') = _device_type (sensor_data self)
     /\ _device_name (sensor_data self') = _device_name (sensor_data self)
     /\ _title (sensor_data self') = _title (sensor_data self)
     /\ _descriptions_updates (sensor_data self') = _descriptions_updates (sensor_data self)
     /\ _sensor_values_updates (sensor_data self') = _sensor_values_updates (sensor_data self)
     /\ _binary_sensor_values_updates (sensor_data self')
        = _binary_sensor_values_updates (sensor_data self)
     /\ _brushing self' = _brushing self
     /\ _last_brush self' = _last_brush self.
Proof.
  unfold Spec.rejected, _start_update. intros Hrej.
  destruct (manufacturer_data service_info !! SONICARE_MANUFACTURER) as [data|].
  - destruct Hrej as [H9 H999].
    rewrite (msg_length_rejected _ H9 H999). cbn. repeat split; reflexivity.
  - repeat split; reflexivity.
Qed.

Lemma start_update_rejected_witness :
  Spec.rejected (sample_service_info [x01; x02])
  /\ _start_update sample_short_address (sample_service_info [x01; x02]) init
     = on_sensor_data (set_device_manufacturer "Philips Sonicare") init.
Proof.
  assert (Hrej : Spec.rejected (sample_service_info [x01; x02])).
  { vm_compute. split; discriminate. }
  split; [exact Hrej |].
  exact (proj1 (start_update_rejected sample_short_address
                  (sample_service_info [x01; x02]) init Hrej)).
Defined.

(** ** Poll cadence *)

Lemma float_eq_le (x y : float) : float_eq x y -> float_le x y.
Proof.
  unfold float_eq, float_le. rewrite FloatAxioms.eqb_spec, FloatAxioms.leb_spec.
  unfold SFeqb, SFleb. destruct (SFcompare (Prim2SF x) (Prim2SF y)) as [[]|]; congruence.
Qed.

Lemma poll_needed_some (K : Const) (self : SonicareBluetoothDeviceData) (now : float)
    (service_info : BluetoothServiceInfo) (last_poll : float) :
  poll_needed K self now service_info (Some last_poll)
  = (Spec.interval K (Spec.cadence self) now <? last_poll)%float.
Proof. reflexivity. Qed.

(** C3, as stated, fails: with the last poll at 1000 and now at 1000,
    nothing has elapsed, yet the code reports the poll as due, because it
    compares the value it is handed with the interval and never subtracts
    it from the clock. *)
Lemma poll_needed_not_elapsed_due :
  poll_needed sample_const init 1000 (sample_service_info nine_bytes) (Some 1000%float) = true
  /\ ~ Spec.isPollDue sample_const (Some 1000%float) (Spec.cadence init) 1000.
Proof.
  split.
  - vm_compute. reflexivity.
  - unfold Spec.isPollDue, float_gt. vm_compute. discriminate.
Qed.

(** C3, amended: for every present [last_poll], every cadence state and
    every now, the poll is due if and only if [last_poll > interval],
    where [last_poll] is the value the caller hands in (it is compared as
    it is, not subtracted from now) and the interval is the brushing
    interval when the brushing flag is set or
    [now - last_brush <= timeout], and the idle interval otherwise.  The
    boundary is inclusive: at [now - last_brush] equal to the timeout the
    brushing interval applies. *)
Theorem poll_needed_due (K : Const) (self : SonicareBluetoothDeviceData) (now : float)
    (service_info : BluetoothServiceInfo) (last_poll : float) :
  (poll_needed K self now service_info (Some last_poll) = true
   <-> float_gt last_poll (Spec.interval K (Spec.cadence self) now))
  /\ (_brushing self = true \/ float_le (now - _last_brush self) (TIMEOUT_RECENTLY_BRUSHING K)
      -> Spec.interval K (Spec.cadence self) now = BRUSHING_UPDATE_INTERVAL_SECONDS K)
  /\ (_brushing self = false
      -> ~ float_le (now - _last_brush self) (TIMEOUT_RECENTLY_BRUSHING K)
      -> Spec.interval K (Spec.cadence self) now = NOT_BRUSHING_UPDATE_INTERVAL_SECONDS K)
  /\ (float_eq (now - _last_brush self) (TIMEOUT_RECENTLY_BRUSHING K)
      -> Spec.interval K (Spec.cadence self) now = BRUSHING_UPDATE_INTERVAL_SECONDS K).
Proof.
  assert (Hle : float_le (now - _last_brush self) (TIMEOUT_RECENTLY_BRUSHING K)
                -> Spec.interval K (Spec.cadence self) now
                   = BRUSHING_UPDATE_INTERVAL_SECONDS K).
  { unfold float_le, Spec.interval. cbn. intros ->. rewrite orb_true_r. reflexivity. }
  split; [| split; [| split]].
  - rewrite poll_needed_some. reflexivity.
  - intros [Hb | H]; [| exact (Hle H)].
    unfold Spec.interval. cbn. rewrite Hb. reflexivity.
  - unfold float_le, Spec.interval. cbn. intros -> Hn.
    destruct (now - _last_brush self <=? TIMEOUT_RECENTLY_BRUSHING K)%float; [| reflexivity].
    contradiction Hn. reflexivity.
  - intros Heq. apply Hle, float_eq_le, Heq.
Qed.

(** C6: when [last_poll] is absent (the device has never been polled) the
    poll is due, for every cadence state and every now. *)
Theorem poll_needed_never_polled (K : Const) (self : SonicareBluetoothDeviceData)
    (now : float) (service_info : BluetoothServiceInfo) :
  poll_needed K self now service_info None = true.
Proof. reflexivity. Qed.

(** ** Decoding a characteristic value *)

(** [STATES.get(n, f"unknown state value {n}")] is the table of the
    specification. *)
Lemma STATES_get (n : Z) :
  default ("unknown state value " +:+ pretty n) (STATES !! n) = Spec.state_label n.
Proof.
  unfold STATES. cbn [list_to_map foldr fst snd uncurry].
  destruct n as [|p|p]; [reflexivity | | reflexivity].
  do 3 (try destruct p as [p|p|]); reflexivity.
Qed.

(** On a non-empty value the dispatch is the decoder of the specification
    followed by the recording of its outcome. *)
Lemma process_characteristic_value_decode (K : Const) (characteristic_uuid : string)
    (b : byte) (rest : bytes) (self : SonicareBluetoothDeviceData) :
  process_characteristic_value K characteristic_uuid (b :: rest) self
  = Ok (Spec.record (Spec.decode K characteristic_uuid (byte_to_Z b)) self).
Proof.
  unfold process_characteristic_value, Spec.decode.
  repeat (case_eqb; [cbn; rewrite ?STATES_get; reflexivity |]).
  reflexivity.
Qed.

(** An identifier outside the known set falls through every branch. *)
Lemma process_characteristic_value_unknown (K : Const) (characteristic_uuid : string)
    (value : bytes) (self : SonicareBluetoothDeviceData) :
  characteristic_uuid ∉ known_characteristics K ->
  process_characteristic_value K characteristic_uuid value self = Ok self.
Proof.
  intros Hu. unfold process_characteristic_value.
  rewrite !(eqb_known_false K characteristic_uuid) by (assumption || set_solver).
  reflexivity.
Qed.

(** The precondition is needed: on an empty value every known identifier
    raises [IndexError]. *)
Lemma process_characteristic_value_empty (K : Const) (characteristic_uuid : string)
    (self : SonicareBluetoothDeviceData) :
  characteristic_uuid ∈ known_characteristics K ->
  process_characteristic_value K characteristic_uuid [] self = Raise IndexError.
Proof.
  intros Hu. unfold process_characteristic_value.
  repeat (case_eqb; [reflexivity |]).
  exfalso. unfold known_characteristics in Hu.
  repeat (apply elem_of_cons in Hu as [Hu | Hu]; [contradiction |]).
  apply elem_of_nil in Hu. exact Hu.
Qed.

Lemma decode_unknown (K : Const) (characteristicId : string) (first : Z) :
  characteristicId ∉ known_characteristics K ->
  Spec.decode K characteristicId first = Spec.Unrecognized.
Proof.
  intros Hu. unfold Spec.decode.
  rewrite !(eqb_known_false K characteristicId) by (assumption || set_solver).
  reflexivity.
Qed.

Lemma decode_handle_session_state (K : Const) (first : Z) :
  CHARACTERISTIC_UPDATED_HANDLE_SESSION_STATE K <> CHARACTERISTIC_BATTERY_LEVEL K ->
  Spec.decode K (CHARACTERISTIC_UPDATED_HANDLE_SESSION_STATE K) first
  = Spec.HandleSessionState (Spec.state_label first).
Proof.
  intros Hne. unfold Spec.decode.
  case_eqb; [contradiction |]. rewrite String.eqb_refl. reflexivity.
Qed.

Lemma decode_battery_level (K : Const) (first : Z) :
  Spec.decode K (CHARACTERISTIC_BATTERY_LEVEL K) first = Spec.BatteryLevel first.
Proof. unfold Spec.decode. rewrite String.eqb_refl. reflexivity. Qed.

Lemma byte_to_Z_range (b : byte) : (0 <= byte_to_Z b < 256)%Z.
Proof. destruct b; vm_compute; split; congruence. Qed.

(** C5: on every non-empty value the handle-session-state characteristic
    records the label that the fixed table gives for the first byte: 0
    "off", 1 "standby", 2 "brushing", 3 "charging", 4 "shutdown", 5
    "validate", 6 "unknown6", 7 "unknown7", and for a byte n outside 0-7
    the label "unknown state value n", never an error; [2] gives
    "brushing" and [9] gives "unknown state value 9". *)
Theorem handle_session_state_label (K : Const) (b : byte) (rest : bytes)
    (self : SonicareBluetoothDeviceData) :
  CHARACTERISTIC_UPDATED_HANDLE_SESSION_STATE K <> CHARACTERISTIC_BATTERY_LEVEL K ->
  let n := byte_to_Z b in
  let uuid := CHARACTERISTIC_UPDATED_HANDLE_SESSION_STATE K in
  process_characteristic_value K uuid (b :: rest) self
  = Ok (on_sensor_data
          (update_sensor "handle_session_state" None (VStr (Spec.state_label n)) None
             "Handle session state") self)
  /\ Spec.state_label n
     = match n with
       | 0 => "off" | 1 => "standby" | 2 => "brushing" | 3 => "charging"
       | 4 => "shutdown" | 5 => "validate" | 6 => "unknown6" | 7 => "unknown7"
       | _ => "unknown state value " +:+ pretty n
       end%Z
  /\ (~ (0 <= n <= 7)%Z -> Spec.state_label n = "unknown state value " +:+ pretty n)
  /\ process_characteristic_value K uuid [x02] self
     = Ok (on_sensor_data
             (update_sensor "handle_session_state" None (VStr "brushing") None
                "Handle session state") self)
  /\ process_characteristic_value K uuid [x09] self
     = Ok (on_sensor_data
             (update_sensor "handle_session_state" None (VStr "unknown state value 9") None
                "Handle session state") self).
Proof.
  intros Hne n uuid. subst uuid.
  rewrite !process_characteristic_value_decode, !decode_handle_session_state by assumption.
  repeat split.
  intros Hout. pose proof (byte_to_Z_range b) as Hr. fold n in Hr.
  destruct n as [|p|p]; [lia | | lia].
  do 3 (try destruct p as [p|p|]); try reflexivity; lia.
Qed.

Lemma handle_session_state_label_witness :
  process_characteristic_value sample_const
    (CHARACTERISTIC_UPDATED_HANDLE_SESSION_STATE sample_const) [x03; xff] init
  = Ok (on_sensor_data
          (update_sensor "handle_session_state" None (VStr "charging") None
             "Handle session state") init).
Proof.
  refine (proj1 (handle_session_state_label sample_const x03 [xff] init _)).
  vm_compute. discriminate.
Defined.

(** C7: for every characteristic identifier outside the known set and
    every value (non-empty or not), decoding gives Unrecognized and the
    call returns the device data exactly as it was: no sensor key, no
    binary-sensor key and no other field is modified. *)
Theorem unknown_characteristic_inert (K : Const) (characteristic_uuid : string)
    (value : bytes) (self : SonicareBluetoothDeviceData) :
  characteristic_uuid ∉ known_characteristics K ->
  (forall first, Spec.decode K characteristic_uuid first = Spec.Unrecognized)
  /\ Spec.record Spec.Unrecognized self = self
  /\ process_characteristic_value K characteristic_uuid value self = Ok self.
Proof.
  intros Hu. split; [| split].
  - intros first. apply decode_unknown, Hu.
  - reflexivity.
  - apply process_characteristic_value_unknown, Hu.
Qed.

Lemma unknown_characteristic_inert_witness :
  process_characteristic_value sample_const "0000feed-0000-1000-8000-00805f9b34fb"
    [x2a] init = Ok init.
Proof.
  refine (proj2 (proj2 (unknown_characteristic_inert sample_const
                          "0000feed-0000-1000-8000-00805f9b34fb" [x2a] init _))).
  apply (bool_decide_unpack _). vm_compute. exact I.
Defined.

Lemma append_empty_r (s : string) : s +:+ "" = s.
Proof.
  induction s as [|c s IH]; [reflexivity |].
  change (String c (s +:+ "") = String c s). rewrite IH. reflexivity.
Qed.

(** An accepted advertisement: the type, the name and the title are set,
    and the title is the model string, a space and the short address. *)
Lemma start_update_accepted (short_address : string -> string)
    (service_info : BluetoothServiceInfo) (data : bytes)
    (self : SonicareBluetoothDeviceData) :
  manufacturer_data service_info !! SONICARE_MANUFACTURER = Some data ->
  length data = 9 \/ length data = 999 ->
  let name := "HX6340 " +:+ short_address (address service_info) in
  _start_update short_address service_info self
  = on_sensor_data (set_title name)
      (on_sensor_data (set_device_name name)
         (on_sensor_data (set_device_type "HX6340")
            (on_sensor_data (set_device_manufacturer "Philips Sonicare") self))).
Proof.
  intros Hdata Hlen. unfold _start_update. rewrite Hdata.
  destruct Hlen as [-> | ->]; reflexivity.
Qed.

(** C8: the battery-level characteristic with value [80] records the
    battery_level reading with value 80, unit percentage and device class
    battery; and an advertisement that carries manufacturer ID 477 with a
    blob of length 9 sets a title made of the model string "HX6340" and
    the short form of the address, which the snapshot of the following
    poll carries together with the battery reading. *)
Theorem advertisement_then_battery (K : Const) (short_address : string -> string)
    (service_info : BluetoothServiceInfo) (data : bytes)
    (self : SonicareBluetoothDeviceData) :
  manufacturer_data service_info !! SONICARE_MANUFACTURER = Some data ->
  length data = 9 ->
  let uuid := CHARACTERISTIC_BATTERY_LEVEL K in
  let short := short_address (address service_info) in
  let self1 := _start_update short_address service_info self in
  let self2 :=
    on_sensor_data
      (update_sensor "battery_level" (Some PERCENTAGE) (VInt 80) (Some BATTERY) "Battery")
      self1 in
  let snapshot := _finish_update (sensor_data self2) in
  process_characteristic_value K uuid [x50] self1 = Ok self2
  /\ entity_values snapshot !! "battery_level"
     = Some {| sv_name := "Battery"; sv_native_value := VInt 80 |}
  /\ entity_descriptions snapshot !! "battery_level"
     = Some {| sd_device_class := Some BATTERY;
               sd_native_unit_of_measurement := Some PERCENTAGE |}
  /\ title snapshot = Some ("HX6340 " +:+ short)
  /\ Spec.occurs_in "HX6340" ("HX6340 " +:+ short)
  /\ Spec.occurs_in short ("HX6340 " +:+ short)
  /\ di_model (devices snapshot) = Some "HX6340"
  /\ di_name (devices snapshot) = Some ("HX6340 " +:+ short).
Proof.
  intros Hdata Hlen uuid short self1 self2 snapshot.
  subst snapshot self2 self1 uuid.
  rewrite (start_update_accepted short_address service_info data self Hdata (or_introl Hlen)).
  rewrite process_characteristic_value_decode, decode_battery_level.
  split; [reflexivity |].
  split; [apply lookup_insert_eq |].
  split; [apply lookup_insert_eq |].
  split; [reflexivity |].
  split; [exists "", (" " +:+ short); reflexivity |].
  split; [exists "HX6340 ", ""; rewrite append_empty_r; reflexivity |].
  split; reflexivity.
Qed.

Lemma advertisement_then_battery_witness :
  title (_finish_update (sensor_data
           (on_sensor_data
              (update_sensor "battery_level" (Some PERCENTAGE) (VInt 80) (Some BATTERY)
                 "Battery")
              (_start_update sample_short_address (sample_service_info nine_bytes) init))))
  = Some "HX6340 EEFF".
Proof.
  refine (proj1 (proj2 (proj2 (proj2
    (advertisement_then_battery sample_const sample_short_address
       (sample_service_info nine_bytes) nine_bytes init _ _))))).
  - vm_compute. reflexivity.
  - reflexivity.
Defined.

(** C9: for every characteristic identifier (every known one in
    particular) and every non-empty value, the call succeeds (the one
    index it reads, 0, is in bounds) and its result is the one computed
    from the first byte alone. *)
Theorem process_reads_first_byte (K : Const) (characteristic_uuid : string)
    (b : byte) (rest : bytes) (self : SonicareBluetoothDeviceData) :
  bytes_getitem (b :: rest) 0 = Ok (byte_to_Z b)
  /\ is_Ok (process_characteristic_value K characteristic_uuid (b :: rest) self)
  /\ process_characteristic_value K characteristic_uuid (b :: rest) self
     = process_characteristic_value K characteristic_uuid [b] self
  /\ process_characteristic_value K characteristic_uuid (b :: rest) self
     = Ok (Spec.record (Spec.decode K characteristic_uuid (byte_to_Z b)) self).
Proof.
  rewrite !process_characteristic_value_decode.
  repeat split. eexists. reflexivity.
Qed.

(** ** The poll cycle *)

Section PollFacts.

Variable K : Const.
Variable T : Bleak.

Lemma try_except_caught (body : Poll T ()) (s : PollState T) :
  try_except T body s = ((body s).1, Ok ()).
Proof.
  unfold try_except. destruct (body s) as [s' [[] | e]]; reflexivity.
Qed.

Lemma for_each_try_except {A} (l : list A) (body : A -> Poll T ()) (s : PollState T) :
  for_each T l (fun x => try_except T (body x)) s
  = (foldl (fun s x => (body x s).1) s l, Ok ()).
Proof.
  revert s. induction l as [|x l IH]; intros s; [reflexivity |].
  cbn [for_each foldl]. unfold poll_bind at 1.
  rewrite try_except_caught. apply IH.
Qed.

Lemma poll_services_run (l : list (list BleakGATTCharacteristic)) (s : PollState T) :
  poll_services K T l s = (after_characteristics K T (concat l) s, Ok ()).
Proof.
  unfold poll_services, after_characteristics.
  revert s. induction l as [|service l IH]; intros s; [reflexivity |].
  cbn [for_each concat]. unfold poll_bind at 1.
  rewrite for_each_try_except, foldl_app. apply IH.
Qed.

End PollFacts.

(** C4: when the connection is established the poll returns a finalized
    snapshot, whatever each characteristic did: the [try] of every
    characteristic of every service runs in turn, a raise of a read, of a
    subscription or of the decoding ends that characteristic's [try] only,
    and the next one starts from the state so left.  When establishing the
    connection fails, that failure is what the poll raises, with the
    device data as it was. *)
Theorem async_poll_isolates_failures (K : Const) (T : Bleak) (ble_device : BLEDevice T)
    (self : SonicareBluetoothDeviceData) :
  match establish_connection T ble_device with
  | Raise e => async_poll K T ble_device self = (self, Raise e)
  | Ok client =>
      let s' := after_characteristics K T (concat (services T client)) (client, self) in
      async_poll K T ble_device self = (s'.2, Ok (_finish_update (sensor_data s'.2)))
  end
  /\ (forall characteristic rest s,
        try_except T (poll_characteristic K T characteristic) s
        = ((poll_characteristic K T characteristic s).1, Ok ())
        /\ after_characteristics K T (characteristic :: rest) s
           = after_characteristics K T rest (poll_characteristic K T characteristic s).1).
Proof.
  split.
  - unfold async_poll. destruct (establish_connection T ble_device) as [client | e].
    + rewrite poll_services_run. reflexivity.
    + reflexivity.
  - intros characteristic rest s. split; [apply try_except_caught | reflexivity].
Qed.

(** The fault-isolation scenario: the battery read raises, the handle
    session state read gives [[2]]; the poll returns a snapshot with the
    handle session state "brushing" and no battery reading. *)
Example poll_with_failing_battery_read :
  exists self' snapshot,
    async_poll sample_const sample_transport true init = (self', Ok snapshot)
    /\ (poll_characteristic sample_const sample_transport
          {| uuid := CHARACTERISTIC_BATTERY_LEVEL sample_const;
             properties := ["read"; "notify"] |} (0, init)).2
       = Raise (BleakError "read failed")
    /\ entity_values snapshot !! "handle_session_state"
       = Some {| sv_name := "Handle session state"; sv_native_value := VStr "brushing" |}
    /\ entity_values snapshot !! "battery_level" = None.
Proof.
  eexists _, _. split; [vm_compute; reflexivity |].
  split; [vm_compute; reflexivity |].
  split; vm_compute; reflexivity.
Qed.

Example poll_without_connection :
  async_poll sample_const sample_transport false init
  = (init, Raise (BleakError "no connection")).
Proof. reflexivity. Qed.

(** ** What every call leaves alone *)

Lemma untouched_refl (self : SonicareBluetoothDeviceData) : untouched self self.
Proof. repeat split. Qed.

Lemma untouched_trans (a b c : SonicareBluetoothDeviceData) :
  untouched a b -> untouched b c -> untouched a c.
Proof.
  unfold untouched. intros (Hb & Hl & Hs) (Hb' & Hl' & Hs').
  repeat split; congruence.
Qed.

Lemma record_untouched (v : Spec.DecodedValue) (self : SonicareBluetoothDeviceData) :
  untouched self (Spec.record v self).
Proof. destruct v; repeat split. Qed.

Lemma process_characteristic_value_untouched (K : Const) (characteristic_uuid : string)
    (value : bytes) (self self' : SonicareBluetoothDeviceData) :
  process_characteristic_value K characteristic_uuid value self = Ok self' ->
  untouched self self'.
Proof.
  destruct value as [|b rest].
  - unfold process_characteristic_value.
    repeat (case_eqb; [discriminate |]).
    intros [= <-]. apply untouched_refl.
  - rewrite process_characteristic_value_decode. intros [= <-]. apply record_untouched.
Qed.

Lemma start_update_untouched (short_address : string -> string)
    (service_info : BluetoothServiceInfo) (self : SonicareBluetoothDeviceData) :
  untouched self (_start_update short_address service_info self).
Proof.
  unfold _start_update.
  destruct (manufacturer_data service_info !! SONICARE_MANUFACTURER) as [data|];
    [| apply untouched_refl].
  destruct (negb _); repeat split.
Qed.

Section Frame.

Variable K : Const.
Variable T : Bleak.

Lemma poll_ret_keeps {A} (a : A) : keeps_untouched (T := T) (poll_ret T a).
Proof. intros s. apply untouched_refl. Qed.

Lemma poll_lift_keeps {A} (r : result A) : keeps_untouched (T := T) (poll_lift T r).
Proof. intros s. apply untouched_refl. Qed.

Lemma poll_bind_keeps {A B} (m : Poll T A) (k : A -> Poll T B) :
  keeps_untouched m -> (forall a, keeps_untouched (k a)) ->
  keeps_untouched (poll_bind T m k).
Proof.
  intros Hm Hk s. unfold poll_bind. specialize (Hm s).
  destruct (m s) as [s' [a | e]]; [| exact Hm].
  eapply untouched_trans; [exact Hm | apply Hk].
Qed.

Lemma on_client_keeps {A} (f : Client T -> Client T * result A) :
  keeps_untouched (on_client T f).
Proof.
  intros s. unfold on_client. destruct (f s.1) as [client' r]. apply untouched_refl.
Qed.

Lemma on_self_keeps (f : SonicareBluetoothDeviceData -> result SonicareBluetoothDeviceData) :
  (forall self self', f self = Ok self' -> untouched self self') ->
  keeps_untouched (on_self T f).
Proof.
  intros Hf s. unfold on_self. destruct (f s.2) as [self' | e] eqn:E.
  - apply Hf, E.
  - apply untouched_refl.
Qed.

Lemma when_keeps (b : bool) (m : Poll T ()) :
  keeps_untouched m -> keeps_untouched (when T b m).
Proof. intros Hm. destruct b; [exact Hm | apply poll_ret_keeps]. Qed.

Lemma poll_characteristic_keeps (characteristic : BleakGATTCharacteristic) :
  keeps_untouched (poll_characteristic K T characteristic).
Proof.
  unfold poll_characteristic.
  apply poll_bind_keeps; [intros s; apply untouched_refl | intros value_char].
  apply poll_bind_keeps; [apply poll_lift_keeps | intros props].
  apply poll_bind_keeps; [| intros _; apply poll_bind_keeps; [| intros _]].
  - apply when_keeps, poll_bind_keeps; [apply on_client_keeps | intros value].
    apply on_self_keeps. intros self self'.
    apply process_characteristic_value_untouched.
  - apply when_keeps, on_client_keeps.
  - apply when_keeps, on_client_keeps.
Qed.

Lemma after_characteristics_untouched (l : list BleakGATTCharacteristic)
    (s : PollState T) :
  untouched s.2 (after_characteristics K T l s).2.
Proof.
  unfold after_characteristics. revert s.
  induction l as [|characteristic l IH]; intros s; [apply untouched_refl |].
  cbn [foldl]. eapply untouched_trans; [apply poll_characteristic_keeps | apply IH].
Qed.

Lemma async_poll_untouched (ble_device : BLEDevice T)
    (self : SonicareBluetoothDeviceData) :
  untouched self (async_poll K T ble_device self).1.
Proof.
  unfold async_poll. destruct (establish_connection T ble_device) as [client | e];
    [| apply untouched_refl].
  rewrite poll_services_run.
  apply (after_characteristics_untouched _ (client, self)).
Qed.

Variable short_address : string -> string.

Lemma step_untouched (self : SonicareBluetoothDeviceData)
    (op : Operation T) :
  untouched self (step K short_address T self op).
Proof.
  destruct op as [service_info | now service_info last_poll | ble_device
                  | characteristic data]; cbn [step].
  - apply start_update_untouched.
  - apply untouched_refl.
  - apply async_poll_untouched.
  - unfold _async_handle_handle_state.
    destruct (process_characteristic_value K (uuid characteristic) data self)
      as [self' | e] eqn:E; [| apply untouched_refl].
    eapply process_characteristic_value_untouched, E.
Qed.

Lemma run_untouched (ops : list (Operation T)) (self : SonicareBluetoothDeviceData) :
  untouched self (run K short_address T ops self).
Proof.
  unfold run. revert self.
  induction ops as [|op ops IH]; intros self; [apply untouched_refl |].
  cbn [foldl]. eapply untouched_trans; [apply step_untouched | apply IH].
Qed.

End Frame.

(** ** The cadence state and the binary sensors over sequences of calls *)

(** C2, as stated, fails: decoding the handle session state [[2]] records
    the reading "brushing", and the brushing flag is still false. *)
Lemma handle_session_state_not_tracked :
  exists self',
    process_characteristic_value sample_const
      (CHARACTERISTIC_UPDATED_HANDLE_SESSION_STATE sample_const) [x02] init = Ok self'
    /\ _sensor_values_updates (sensor_data self') !! "handle_session_state"
       = Some {| sv_name := "Handle session state"; sv_native_value := VStr "brushing" |}
    /\ _brushing self' = false
    /\ ~ tracks_brushing "brushing" self'.
Proof.
  eexists. split; [vm_compute; reflexivity |].
  split; [vm_compute; reflexivity |].
  split; [reflexivity |].
  unfold tracks_brushing. cbn. intros [_ H]. specialize (H eq_refl). discriminate.
Qed.

(** C2, amended: the cadence state starts as (not brushing, last brush at
    0.0) and no call mutates it: advertisement processing, the cadence
    query, a poll cycle and a notification all leave the brushing flag and
    the last-brush time as they were, a decoded handle-session-state
    reading included, so after every sequence of calls they still hold
    their initial values. *)
Theorem cadence_state_never_mutated (K : Const) (short_address : string -> string)
    (T : Bleak) :
  Spec.cadence init
  = {| Spec.isBrushingNow := false; Spec.lastBrushingObservedAt := 0%float |}
  /\ (forall self op,
        Spec.cadence (step K short_address T self op) = Spec.cadence self)
  /\ (forall characteristic_uuid value self self',
        process_characteristic_value K characteristic_uuid value self = Ok self' ->
        Spec.cadence self' = Spec.cadence self)
  /\ (forall ops,
        Spec.cadence (run K short_address T ops init)
        = {| Spec.isBrushingNow := false; Spec.lastBrushingObservedAt := 0%float |}).
Proof.
  assert (Hc : forall self self', untouched self self' -> Spec.cadence self' = Spec.cadence self).
  { intros self self' (Hb & Hl & _). unfold Spec.cadence. rewrite Hb, Hl. reflexivity. }
  split; [reflexivity |].
  split; [intros self op; apply Hc, step_untouched |].
  split.
  - intros characteristic_uuid value self self' H.
    eapply Hc, process_characteristic_value_untouched, H.
  - intros ops. rewrite (Hc init _ (run_untouched K T short_address ops init)).
    reflexivity.
Qed.

(** C10: after every sequence of calls on a fresh object the finalized
    snapshot holds no binary-sensor reading, and so does every snapshot a
    poll returns: neither advertisement processing nor any decode path
    writes one. *)
Theorem no_binary_sensor_recorded (K : Const) (short_address : string -> string)
    (T : Bleak) (ops : list (Operation T)) :
  let self := run K short_address T ops init in
  binary_entity_values (_finish_update (sensor_data self)) = ∅
  /\ binary_entity_values (_finish_update (sensor_data self))
       !! str_SonicareBinarySensor BRUSHING = None
  /\ (forall ble_device snapshot,
        (async_poll K T ble_device self).2 = Ok snapshot ->
        binary_entity_values snapshot = ∅).
Proof.
  intros self.
  assert (Hrun : _binary_sensor_values_updates (sensor_data self) = ∅).
  { destruct (run_untouched K T short_address ops init) as (_ & _ & Hs). exact Hs. }
  split; [exact Hrun |].
  split; [cbn [binary_entity_values _finish_update]; rewrite Hrun; apply lookup_empty |].
  intros ble_device snapshot Hpoll.
  destruct (async_poll_untouched K T ble_device self) as (_ & _ & Hs).
  unfold async_poll in *.
  destruct (establish_connection T ble_device) as [client | e]; [| discriminate].
  destruct (poll_services K T (services T client) (client, self)) as [s' [[] | e]];
    [| discriminate].
  injection Hpoll as <-. cbn in Hs |- *. rewrite Hs. exact Hrun.
Qed.

(** * Further properties of the parser *)

(** ** Advertisements *)

(** X1: processing the same advertisement twice is the same as processing
    it once. *)
Theorem start_update_idempotent (short_address : string -> string)
    (service_info : BluetoothServiceInfo) (self : SonicareBluetoothDeviceData) :
  _start_update short_address service_info
    (_start_update short_address service_info self)
  = _start_update short_address service_info self.
Proof.
  unfold _start_update.
  destruct (manufacturer_data service_info !! SONICARE_MANUFACTURER) as [data|];
    [| reflexivity].
  destruct (negb _); reflexivity.
Qed.

(** X2: the bytes of the blob are never inspected.  Two advertisements
    from the same address whose blobs under ID 477 have an accepted
    length (9 or 999, in any combination) leave the same device data,
    with manufacturer "Philips Sonicare", type "HX6340", and one string
    as device name and title. *)
Theorem start_update_ignores_payload (short_address : string -> string)
    (info1 info2 : BluetoothServiceInfo) (data1 data2 : bytes)
    (self : SonicareBluetoothDeviceData) :
  manufacturer_data info1 !! SONICARE_MANUFACTURER = Some data1 ->
  manufacturer_data info2 !! SONICARE_MANUFACTURER = Some data2 ->
  length data1 = 9 \/ length data1 = 999 ->
  length data2 = 9 \/ length data2 = 999 ->
  address info1 = address info2 ->
  _start_update short_address info1 self = _start_update short_address info2 self
  /\ identity (_start_update short_address info1 self)
     = (Some ("HX6340 " +:+ short_address (address info1)),
        {| di_name := Some ("HX6340 " +:+ short_address (address info1));
           di_model := Some "HX6340";
           di_manufacturer := Some "Philips Sonicare" |}).
Proof.
  intros H1 H2 L1 L2 Haddr.
  rewrite (start_update_accepted short_address info1 data1 self H1 L1).
  rewrite (start_update_accepted short_address info2 data2 self H2 L2).
  rewrite Haddr. split; reflexivity.
Qed.

Lemma start_update_ignores_payload_witness :
  _start_update sample_short_address (sample_service_info nine_bytes) init
  = _start_update sample_short_address (sample_service_info (replicate 999 xff)) init.
Proof.
  refine (proj1 (start_update_ignores_payload sample_short_address
                   (sample_service_info nine_bytes)
                   (sample_service_info (replicate 999 xff))
                   nine_bytes (replicate 999 xff) init _ _ _ _ _)).
  - vm_compute. reflexivity.
  - vm_compute. reflexivity.
  - left. reflexivity.
  - right. vm_compute. reflexivity.
  - reflexivity.
Defined.

(** X3: no advertisement, accepted or not, records or alters a sensor
    reading: the descriptions and the values are those before the call. *)
Theorem start_update_keeps_readings (short_address : string -> string)
    (service_info : BluetoothServiceInfo) (self : SonicareBluetoothDeviceData) :
  let self' := _start_update short_address service_info self in
  _descriptions_updates (sensor_data self') = _descriptions_updates (sensor_data self)
  /\ _sensor_values_updates (sensor_data self') = _sensor_values_updates (sensor_data self)
  /\ entity_values (_finish_update (sensor_data self'))
     = entity_values (_finish_update (sensor_data self)).
Proof.
  unfold _start_update.
  destruct (manufacturer_data service_info !! SONICARE_MANUFACTURER) as [data|];
    [| repeat split].
  destruct (negb _); repeat split.
Qed.

(** X4: an advertisement and a characteristic value can be processed in
    either order: decoding after the advertisement gives what the
    advertisement gives after decoding, and raises when decoding alone
    raises. *)
Theorem start_update_process_commute (K : Const) (short_address : string -> string)
    (service_info : BluetoothServiceInfo) (characteristic_uuid : string)
    (value : bytes) (self : SonicareBluetoothDeviceData) :
  process_characteristic_value K characteristic_uuid value
    (_start_update short_address service_info self)
  = match process_characteristic_value K characteristic_uuid value self with
    | Ok self' => Ok (_start_update short_address service_info self')
    | Raise e => Raise e
    end.
Proof.
  destruct value as [|b rest].
  - unfold process_characteristic_value. repeat (case_eqb; [reflexivity |]). reflexivity.
  - rewrite !process_characteristic_value_decode. f_equal.
    unfold _start_update.
    destruct (Spec.decode K characteristic_uuid (byte_to_Z b));
      (destruct (manufacturer_data service_info !! SONICARE_MANUFACTURER) as [data|];
       [destruct (negb _) |]; reflexivity).
Qed.

(** ** Characteristic values *)

Ltac case_eqb_on u :=
  match goal with
  | |- context [String.eqb u ?k] => destruct (String.eqb_spec u k)
  end.

Lemma update_sensor_overwrite (key : string) (u1 u2 : option Units)
    (v1 v2 : NativeValue) (c1 c2 : option SensorDeviceClass) (n1 n2 : string)
    (self : SonicareBluetoothDeviceData) :
  on_sensor_data (update_sensor key u2 v2 c2 n2)
    (on_sensor_data (update_sensor key u1 v1 c1 n1) self)
  = on_sensor_data (update_sensor key u2 v2 c2 n2) self.
Proof.
  unfold on_sensor_data, update_sensor. cbn.
  rewrite !insert_insert_eq. reflexivity.
Qed.

Lemma update_sensor_commute (k1 k2 : string) (u1 u2 : option Units)
    (v1 v2 : NativeValue) (c1 c2 : option SensorDeviceClass) (n1 n2 : string)
    (self : SonicareBluetoothDeviceData) :
  k1 <> k2 ->
  on_sensor_data (update_sensor k2 u2 v2 c2 n2)
    (on_sensor_data (update_sensor k1 u1 v1 c1 n1) self)
  = on_sensor_data (update_sensor k1 u1 v1 c1 n1)
      (on_sensor_data (update_sensor k2 u2 v2 c2 n2) self).
Proof.
  intros Hne. unfold on_sensor_data, update_sensor. cbn.
  rewrite (insert_insert_ne (_descriptions_updates (sensor_data self)) k2 k1) by congruence.
  rewrite (insert_insert_ne (_sensor_values_updates (sensor_data self)) k2 k1) by congruence.
  reflexivity.
Qed.

(** X5: latest wins.  Two values of one characteristic processed in turn
    leave what the second alone leaves: the earlier reading is
    overwritten and nothing of it remains. *)
Theorem process_latest_wins (K : Const) (characteristic_uuid : string)
    (b1 b2 : byte) (rest1 rest2 : bytes) (self : SonicareBluetoothDeviceData) :
  process_characteristic_value K characteristic_uuid (b1 :: rest1) self
    ≫= process_characteristic_value K characteristic_uuid (b2 :: rest2)
  = process_characteristic_value K characteristic_uuid (b2 :: rest2) self.
Proof.
  rewrite (process_characteristic_value_decode K characteristic_uuid b1).
  cbn [mbind result_bind]. rewrite !process_characteristic_value_decode. f_equal.
  unfold Spec.decode.
  repeat (case_eqb; [apply update_sensor_overwrite |]).
  reflexivity.
Qed.

(** X6: values of two different characteristics can be processed in
    either order; the device data and the outcome are the same. *)
Theorem process_commute (K : Const) (uuid1 uuid2 : string) (b1 b2 : byte)
    (rest1 rest2 : bytes) (self : SonicareBluetoothDeviceData) :
  uuid1 <> uuid2 ->
  process_characteristic_value K uuid1 (b1 :: rest1) self
    ≫= process_characteristic_value K uuid2 (b2 :: rest2)
  = process_characteristic_value K uuid2 (b2 :: rest2) self
    ≫= process_characteristic_value K uuid1 (b1 :: rest1).
Proof.
  intros Hne.
  rewrite (process_characteristic_value_decode K uuid1 b1 rest1 self).
  rewrite (process_characteristic_value_decode K uuid2 b2 rest2 self).
  cbn [mbind result_bind]. rewrite !process_characteristic_value_decode. f_equal.
  unfold Spec.decode.
  repeat (case_eqb_on uuid1;
          [repeat (case_eqb_on uuid2;
                   [first [congruence
                          | cbn [Spec.record]; unfold Spec.recordSensor;
                            apply update_sensor_commute; discriminate] |]);
           reflexivity |]).
  reflexivity.
Qed.

Lemma process_commute_witness :
  process_characteristic_value sample_const (CHARACTERISTIC_BATTERY_LEVEL sample_const)
    [x50] init
    ≫= process_characteristic_value sample_const (CHARACTERISTIC_INTENSITY sample_const) [x02]
  = process_characteristic_value sample_const (CHARACTERISTIC_INTENSITY sample_const)
      [x02] init
    ≫= process_characteristic_value sample_const (CHARACTERISTIC_BATTERY_LEVEL sample_const)
         [x50].
Proof.
  refine (process_commute sample_const _ _ x50 x02 [] [] init _).
  vm_compute. discriminate.
Defined.

(** X7: the one way the call fails.  It raises exactly when the value is
    empty and the identifier is a known one, and what it raises is
    [IndexError]; on an unknown identifier an empty value is accepted. *)
Theorem process_raises_iff (K : Const) (characteristic_uuid : string)
    (value : bytes) (self : SonicareBluetoothDeviceData) (e : Exception) :
  process_characteristic_value K characteristic_uuid value self = Raise e
  <-> value = [] /\ characteristic_uuid ∈ known_characteristics K /\ e = IndexError.
Proof.
  split.
  - destruct value as [|b rest].
    + destruct (decide (characteristic_uuid ∈ known_characteristics K)) as [Hin | Hout].
      * rewrite process_characteristic_value_empty by assumption.
        intros [= <-]. repeat split. exact Hin.
      * rewrite process_characteristic_value_unknown by assumption. discriminate.
    + rewrite process_characteristic_value_decode. discriminate.
  - intros (-> & Hin & ->). apply process_characteristic_value_empty, Hin.
Qed.

Lemma state_label_outside (n : Z) :
  ~ (0 <= n <= 7)%Z -> Spec.state_label n = "unknown state value " +:+ pretty n.
Proof.
  intros Hout. destruct n as [|p|p]; [lia | | reflexivity].
  do 3 (try destruct p as [p|p|]); try reflexivity; lia.
Qed.

Lemma state_label_inj (n1 n2 : Z) :
  Spec.state_label n1 = Spec.state_label n2 -> n1 = n2.
Proof.
  destruct (decide (0 <= n1 <= 7)%Z) as [H1 | H1];
    destruct (decide (0 <= n2 <= 7)%Z) as [H2 | H2].
  - assert (D1 : (n1 = 0 \/ n1 = 1 \/ n1 = 2 \/ n1 = 3 \/ n1 = 4 \/ n1 = 5 \/ n1 = 6
                  \/ n1 = 7)%Z) by lia.
    assert (D2 : (n2 = 0 \/ n2 = 1 \/ n2 = 2 \/ n2 = 3 \/ n2 = 4 \/ n2 = 5 \/ n2 = 6
                  \/ n2 = 7)%Z) by lia.
    clear H1 H2.
    repeat (destruct D1 as [-> | D1]); try subst n1;
      repeat (destruct D2 as [-> | D2]); try subst n2;
      first [reflexivity | intros H; discriminate H].
  - assert (D1 : (n1 = 0 \/ n1 = 1 \/ n1 = 2 \/ n1 = 3 \/ n1 = 4 \/ n1 = 5 \/ n1 = 6
                  \/ n1 = 7)%Z) by lia.
    rewrite (state_label_outside n2 H2).
    repeat (destruct D1 as [-> | D1]); try subst n1; intros H; discriminate H.
  - assert (D2 : (n2 = 0 \/ n2 = 1 \/ n2 = 2 \/ n2 = 3 \/ n2 = 4 \/ n2 = 5 \/ n2 = 6
                  \/ n2 = 7)%Z) by lia.
    rewrite (state_label_outside n1 H1).
    repeat (destruct D2 as [-> | D2]); try subst n2; intros H; discriminate H.
  - rewrite (state_label_outside n1 H1), (state_label_outside n2 H2).
    intros H. apply (inj (String.append _)) in H. apply (inj pretty) in H. exact H.
Qed.

Lemma byte_to_Z_inj (b1 b2 : byte) : byte_to_Z b1 = byte_to_Z b2 -> b1 = b2.
Proof.
  unfold byte_to_Z. intros H. apply N2Z.inj in H.
  assert (Hs : Some b1 = Some b2) by (rewrite <- !Byte.of_to_N, H; reflexivity).
  injection Hs as ->. reflexivity.
Qed.

(** X8: the recorded state label determines the byte.  Two readings of
    the handle session state with different first bytes record different
    labels, so no two raw states are confused, the synthesized labels
    included; the label "brushing" is recorded for the byte 2 and for no
    other. *)
Theorem handle_session_state_distinguishes (K : Const) (b1 b2 : byte)
    (rest1 rest2 : bytes) (self : SonicareBluetoothDeviceData) :
  CHARACTERISTIC_UPDATED_HANDLE_SESSION_STATE K <> CHARACTERISTIC_BATTERY_LEVEL K ->
  let uuid := CHARACTERISTIC_UPDATED_HANDLE_SESSION_STATE K in
  (process_characteristic_value K uuid (b1 :: rest1) self
   = process_characteristic_value K uuid (b2 :: rest2) self -> b1 = b2)
  /\ (forall self',
        process_characteristic_value K uuid (b1 :: rest1) self = Ok self' ->
        (sv_native_value <$> _sensor_values_updates (sensor_data self')
                               !! str_SonicareSensor HANDLE_SESSION_STATE
         = Some (VStr "brushing")
         <-> b1 = x02)).
Proof.
  intros Hne uuid. subst uuid.
  rewrite !process_characteristic_value_decode, !decode_handle_session_state by assumption.
  split.
  - intros H. injection H as H.
    apply (f_equal (fun m => sv_native_value <$> m !! "handle_session_state")) in H.
    rewrite !lookup_insert_eq in H. cbn in H.
    injection H as H. apply byte_to_Z_inj, state_label_inj, H.
  - intros self' [= <-]. cbn. rewrite lookup_insert_eq. cbn. split.
    + intros [= H]. apply byte_to_Z_inj, state_label_inj. exact H.
    + intros ->. reflexivity.
Qed.

Lemma handle_session_state_distinguishes_witness :
  sv_native_value <$>
    _sensor_values_updates
      (sensor_data
         (on_sensor_data
            (update_sensor "handle_session_state" None (VStr "brushing") None
               "Handle session state") init))
      !! str_SonicareSensor HANDLE_SESSION_STATE
  = Some (VStr "brushing")
  <-> x02 = x02.
Proof.
  refine (proj2 (handle_session_state_distinguishes sample_const x02 x02 [] [] init _) _ _).
  - vm_compute. discriminate.
  - vm_compute. reflexivity.
Defined.

(** ** Properties of the device data that every call keeps *)

Section Preservation.

Variable K : Const.
Variable T : Bleak.
Variable P : SonicareBluetoothDeviceData -> Prop.

Hypothesis process_keeps : forall characteristic_uuid value self self',
  P self -> process_characteristic_value K characteristic_uuid value self = Ok self' ->
  P self'.

Lemma keeps_ret {A} (a : A) : keeps (T := T) P (poll_ret T a).
Proof. intros s Hs. exact Hs. Qed.

Lemma keeps_bind {A B} (m : Poll T A) (k : A -> Poll T B) :
  keeps P m -> (forall a, keeps P (k a)) -> keeps P (poll_bind T m k).
Proof.
  intros Hm Hk s Hs. unfold poll_bind. specialize (Hm s Hs).
  destruct (m s) as [s' [a | e]]; [apply Hk, Hm | exact Hm].
Qed.

Lemma keeps_on_client {A} (f : Client T -> Client T * result A) :
  keeps P (on_client T f).
Proof. intros s Hs. unfold on_client. destruct (f s.1). exact Hs. Qed.

Lemma keeps_on_self (characteristic_uuid : string) (value : bytes) :
  keeps P (on_self T (process_characteristic_value K characteristic_uuid value)).
Proof.
  intros s Hs. unfold on_self.
  destruct (process_characteristic_value K characteristic_uuid value s.2)
    as [self' | e] eqn:E; [| exact Hs].
  exact (process_keeps _ _ _ _ Hs E).
Qed.

Lemma keeps_when (b : bool) (m : Poll T ()) : keeps P m -> keeps P (when T b m).
Proof. intros Hm. destruct b; [exact Hm | apply keeps_ret]. Qed.

Lemma keeps_poll_characteristic (characteristic : BleakGATTCharacteristic) :
  keeps P (poll_characteristic K T characteristic).
Proof.
  unfold poll_characteristic.
  apply keeps_bind; [intros s Hs; exact Hs | intros value_char].
  apply keeps_bind; [intros s Hs; exact Hs | intros props].
  apply keeps_bind; [| intros _; apply keeps_bind; [| intros _]].
  - apply keeps_when, keeps_bind; [apply keeps_on_client | intros value].
    apply keeps_on_self.
  - apply keeps_when, keeps_on_client.
  - apply keeps_when, keeps_on_client.
Qed.

Lemma keeps_after_characteristics (l : list BleakGATTCharacteristic) (s : PollState T) :
  P s.2 -> P (after_characteristics K T l s).2.
Proof.
  unfold after_characteristics. revert s.
  induction l as [|characteristic l IH]; intros s Hs; [exact Hs |].
  cbn [foldl]. apply IH, keeps_poll_characteristic, Hs.
Qed.

Lemma keeps_async_poll (ble_device : BLEDevice T) (self : SonicareBluetoothDeviceData) :
  P self -> P (async_poll K T ble_device self).1.
Proof.
  intros Hs. unfold async_poll.
  destruct (establish_connection T ble_device) as [client | e]; [| exact Hs].
  rewrite poll_services_run.
  apply (keeps_after_characteristics _ (client, self)), Hs.
Qed.

Variable short_address : string -> string.

Hypothesis start_update_keeps : forall service_info self,
  P self -> P (_start_update short_address service_info self).

Lemma keeps_step (self : SonicareBluetoothDeviceData) (op : Operation T) :
  P self -> P (step K short_address T self op).
Proof.
  intros Hs.
  destruct op as [service_info | now service_info last_poll | ble_device
                  | characteristic data]; cbn [step].
  - apply start_update_keeps, Hs.
  - exact Hs.
  - apply keeps_async_poll, Hs.
  - unfold _async_handle_handle_state.
    destruct (process_characteristic_value K (uuid characteristic) data self)
      as [self' | e] eqn:E; [| exact Hs].
    exact (process_keeps _ _ _ _ Hs E).
Qed.

Lemma keeps_run (ops : list (Operation T)) (self : SonicareBluetoothDeviceData) :
  P self -> P (run K short_address T ops self).
Proof.
  unfold run. revert self.
  induction ops as [|op ops IH]; intros self Hs; [exact Hs |].
  cbn [foldl]. apply IH, keeps_step, Hs.
Qed.

End Preservation.













Lemma start_update_values (short_address : string -> string)
    (service_info : BluetoothServiceInfo) (self : SonicareBluetoothDeviceData) :
  _sensor_values_updates (sensor_data (_start_update short_address service_info self))
  = _sensor_values_updates (sensor_data self).
Proof.
  unfold _start_update.
  destruct (manufacturer_data service_info !! SONICARE_MANUFACTURER) as [data|];
    [| reflexivity].
  destruct (negb _); reflexivity.
Qed.

(** X12: a reading is never removed.  A key that has a value keeps having
    one through every sequence of calls; readings persist from one poll
    cycle to the next. *)
Theorem readings_persist (K : Const) (short_address : string -> string) (T : Bleak)
    (ops : list (Operation T)) (self : SonicareBluetoothDeviceData) (key : string) :
  is_Some (_sensor_values_updates (sensor_data self) !! key) ->
  is_Some (_sensor_values_updates (sensor_data (run K short_address T ops self)) !! key).
Proof.
  apply (keeps_run K T
           (fun self => is_Some (_sensor_values_updates (sensor_data self) !! key))).
  - intros u v s s' Hs. destruct v as [|b rest].
    + unfold process_characteristic_value.
      repeat (case_eqb; [discriminate |]). intros [= <-]. exact Hs.
    + rewrite process_characteristic_value_decode. intros [= <-].
      destruct (Spec.decode K u (byte_to_Z b)); cbn; try exact Hs;
        apply lookup_insert_is_Some'; right; exact Hs.
  - intros service_info s Hs.
    rewrite start_update_values. exact Hs.
Qed.

Lemma readings_persist_witness :
  is_Some
    (_sensor_values_updates
       (sensor_data
          (run sample_const sample_short_address sample_transport
             [Call_async_poll sample_transport true]
             (on_sensor_data
                (update_sensor "battery_level" (Some PERCENTAGE) (VInt 80) (Some BATTERY)
                   "Battery") init)))
       !! "battery_level").
Proof.
  refine (readings_persist sample_const sample_short_address sample_transport
            [Call_async_poll sample_transport true] _ "battery_level" _).
  eexists. vm_compute. reflexivity.
Defined.

Lemma process_identity (K : Const) (characteristic_uuid : string) (value : bytes)
    (self self' : SonicareBluetoothDeviceData) :
  process_characteristic_value K characteristic_uuid value self = Ok self' ->
  identity self' = identity self.
Proof.
  destruct value as [|b rest].
  - unfold process_characteristic_value.
    repeat (case_eqb; [discriminate |]). intros [= <-]. reflexivity.
  - rewrite process_characteristic_value_decode. intros [= <-].
    destruct (Spec.decode K characteristic_uuid (byte_to_Z b)); reflexivity.
Qed.

(** X13: only an advertisement sets the identity.  A poll cycle, whatever
    the transport does, and a notification leave the title and the device
    information as they were, and the snapshot a poll returns carries
    the identity the object had before the poll. *)
Theorem poll_keeps_identity (K : Const) (T : Bleak) (self : SonicareBluetoothDeviceData) :
  (forall ble_device,
     identity (async_poll K T ble_device self).1 = identity self
     /\ forall snapshot,
          (async_poll K T ble_device self).2 = Ok snapshot ->
          (title snapshot, devices snapshot) = identity self)
  /\ (forall characteristic data self',
        _async_handle_handle_state K characteristic data self = Ok self' ->
        identity self' = identity self).
Proof.
  assert (Hpoll : forall ble_device,
            identity (async_poll K T ble_device self).1 = identity self).
  { intros ble_device.
    apply (keeps_async_poll K T (fun s => identity s = identity self));
      [| reflexivity].
    intros u v s s' Hs E. rewrite (process_identity K u v s s' E). exact Hs. }
  split.
  - intros ble_device. split; [apply Hpoll |].
    intros snapshot Hsnap. rewrite <- (Hpoll ble_device).
    unfold async_poll in *.
    destruct (establish_connection T ble_device) as [client | e]; [| discriminate].
    destruct (poll_services K T (services T client) (client, self)) as [s' [[] | e]];
      [| discriminate].
    injection Hsnap as <-. reflexivity.
  - intros characteristic data self'. apply process_identity.
Qed.

(** X14: the cadence follows the clock alone.  After every sequence of
    calls on a fresh object the brushing flag is still unset and the last
    brush still at 0.0, so whether a poll is due is decided by [now] and
    [last_poll] only: the brushing interval applies when
    [now - 0.0 <= timeout], the idle interval otherwise, whatever the
    device has reported. *)
Theorem cadence_follows_clock (K : Const) (short_address : string -> string)
    (T : Bleak) (ops : list (Operation T)) (now : float)
    (service_info : BluetoothServiceInfo) (last_poll : float) :
  poll_needed K (run K short_address T ops init) now service_info (Some last_poll)
  = ((if (now - 0 <=? TIMEOUT_RECENTLY_BRUSHING K)%float
      then BRUSHING_UPDATE_INTERVAL_SECONDS K
      else NOT_BRUSHING_UPDATE_INTERVAL_SECONDS K) <? last_poll)%float.
Proof.
  destruct (run_untouched K T short_address ops init) as (Hb & Hl & _).
  unfold poll_needed. rewrite Hb, Hl. reflexivity.
Qed.

(** ** One characteristic of a poll cycle *)

Ltac unfold_poll :=
  cbv [poll_characteristic poll_bind poll_lift properties_of when on_client on_self
       poll_ret try_except fst snd mbind result_bind].

(** X15: within the [try] of one characteristic the device data changes
    in one way only: the lookup finds the characteristic, it is readable,
    the read succeeds and the value decodes; the data is then what
    decoding the value under the listed identifier gives.  In every
    other case, and whatever the subscriptions do, the data is as it
    was. *)
Theorem poll_characteristic_data (K : Const) (T : Bleak)
    (characteristic : BleakGATTCharacteristic) (s : PollState T) :
  (poll_characteristic K T characteristic s).1.2
  = match get_characteristic T s.1 (uuid characteristic) with
    | Ok (Some value_char) =>
        if contains_str "read" (properties value_char) then
          match (read_gatt_char T s.1 (uuid characteristic)).2
                  ≫= (fun value =>
                         process_characteristic_value K (uuid characteristic) value s.2)
          with
          | Ok self' => self'
          | Raise _ => s.2
          end
        else s.2
    | _ => s.2
    end.
Proof.
  destruct s as [client self].
  unfold_poll.
  destruct (get_characteristic T client (uuid characteristic)) as [[value_char |] | e];
    [| reflexivity | reflexivity].
  destruct (contains_str "read" (properties value_char)).
  - destruct (read_gatt_char T client (uuid characteristic)) as [client1 [value | e]];
      [| reflexivity].
    destruct (process_characteristic_value K (uuid characteristic) value self)
      as [self' | e]; [| reflexivity].
    destruct (contains_str "indicate" (properties value_char));
      [destruct (start_notify T client1 (uuid characteristic)) as [client2 [[] | e]] |];
      try reflexivity;
      (destruct (contains_str "notify" (properties value_char));
       [destruct (start_notify T _ (uuid characteristic)) as [client3 r] |];
       reflexivity).
  - destruct (contains_str "indicate" (properties value_char));
      [destruct (start_notify T client (uuid characteristic)) as [client2 [[] | e]] |];
      try reflexivity;
      (destruct (contains_str "notify" (properties value_char));
       [destruct (start_notify T _ (uuid characteristic)) as [client3 r] |];
       reflexivity).
Qed.

(** X16: a characteristic that a service lists and the lookup by
    identifier does not find.  The lookup gives [None], reading its
    properties raises [AttributeError], and nothing else happens: no
    read, no subscription, the client and the device data are as they
    were; the loop goes on. *)
Theorem poll_characteristic_missing (K : Const) (T : Bleak)
    (characteristic : BleakGATTCharacteristic) (s : PollState T) :
  get_characteristic T s.1 (uuid characteristic) = Ok None ->
  poll_characteristic K T characteristic s = (s, Raise AttributeError)
  /\ try_except T (poll_characteristic K T characteristic) s = (s, Ok ()).
Proof.
  intros Hget. unfold_poll. destruct s as [client self]. cbn [fst snd] in *.
  rewrite Hget. split; reflexivity.
Qed.

Lemma poll_characteristic_missing_witness :
  let T := table_transport [battery_characteristic ["read"]] [] (fun _ => Ok [x50]) in
  poll_characteristic sample_const T (battery_characteristic ["read"]) (0, init)
  = ((0, init), Raise AttributeError).
Proof.
  refine (proj1 (poll_characteristic_missing sample_const
                   (table_transport [battery_characteristic ["read"]] []
                      (fun _ => Ok [x50]))
                   (battery_characteristic ["read"]) (0, init) _)).
  reflexivity.
Defined.

(** X17: a failed read or a failed decoding ends the [try] before any
    subscription.  When the read raises, or returns a value on which the
    decoding raises, the [try] raises that exception in the client state
    the read left, with the device data as it was: [start_notify] is not
    called for this characteristic, whatever its properties. *)
Theorem poll_characteristic_read_failure (K : Const) (T : Bleak)
    (characteristic value_char : BleakGATTCharacteristic) (s : PollState T)
    (client' : Client T) (r : result bytes) (e : Exception) :
  get_characteristic T s.1 (uuid characteristic) = Ok (Some value_char) ->
  contains_str "read" (properties value_char) = true ->
  read_gatt_char T s.1 (uuid characteristic) = (client', r) ->
  r ≫= (fun value => process_characteristic_value K (uuid characteristic) value s.2)
  = Raise e ->
  poll_characteristic K T characteristic s = ((client', s.2), Raise e).
Proof.
  intros Hget Hread Hr He. destruct s as [client self]. cbn [fst snd] in *.
  unfold_poll. rewrite Hget, Hread, Hr.
  destruct r as [value | e']; cbn [mbind result_bind] in He.
  - rewrite He. reflexivity.
  - injection He as ->. reflexivity.
Qed.

Lemma poll_characteristic_read_failure_witness :
  poll_characteristic sample_const sample_transport
    (battery_characteristic ["read"; "notify"]) (0, init)
  = ((0, init), Raise (BleakError "read failed")).
Proof.
  refine (poll_characteristic_read_failure sample_const sample_transport
            (battery_characteristic ["read"; "notify"])
            (battery_characteristic ["read"; "notify"]) (0, init) 0
            (Raise (BleakError "read failed")) (BleakError "read failed") _ _ _ _);
    reflexivity.
Defined.

(** X18: a characteristic with both the indicate and the notify property
    is subscribed twice.  When it is not readable and the first
    subscription succeeds, [start_notify] is called a second time, in the
    client state the first call left, and the outcome of the [try] is the
    outcome of that second call. *)
Theorem poll_characteristic_subscribes_twice (K : Const) (T : Bleak)
    (characteristic value_char : BleakGATTCharacteristic) (s : PollState T)
    (client' : Client T) :
  get_characteristic T s.1 (uuid characteristic) = Ok (Some value_char) ->
  contains_str "read" (properties value_char) = false ->
  contains_str "indicate" (properties value_char) = true ->
  contains_str "notify" (properties value_char) = true ->
  start_notify T s.1 (uuid characteristic) = (client', Ok ()) ->
  poll_characteristic K T characteristic s
  = (((start_notify T client' (uuid characteristic)).1, s.2),
     (start_notify T client' (uuid characteristic)).2).
Proof.
  intros Hget Hread Hind Hnot Hfirst. destruct s as [client self]. cbn [fst snd] in *.
  unfold_poll. rewrite Hget, Hread, Hind, Hnot, Hfirst.
  destruct (start_notify T client' (uuid characteristic)) as [client'' r]. reflexivity.
Qed.

Lemma poll_characteristic_subscribes_twice_witness :
  let c := battery_characteristic ["indicate"; "notify"] in
  poll_characteristic sample_const (table_transport [c] [c] (fun _ => Ok [x50])) c (0, init)
  = ((2, init), Ok ()).
Proof.
  refine (poll_characteristic_subscribes_twice sample_const
            (table_transport [battery_characteristic ["indicate"; "notify"]]
               [battery_characteristic ["indicate"; "notify"]] (fun _ => Ok [x50]))
            (battery_characteristic ["indicate"; "notify"])
            (battery_characteristic ["indicate"; "notify"]) (0, init) 1 _ _ _ _ _);
    reflexivity.
Defined.

(** X19: a device without a readable characteristic.  When no lookup
    finds a characteristic with the read property, a poll records
    nothing: the device data is the one before the poll and, once the
    connection is established, the snapshot returned is the snapshot of
    that data, however many subscriptions were made or failed. *)
Theorem poll_without_readable (K : Const) (T : Bleak) (ble_device : BLEDevice T)
    (self : SonicareBluetoothDeviceData) :
  (forall client characteristic_uuid value_char,
     get_characteristic T client characteristic_uuid = Ok (Some value_char) ->
     contains_str "read" (properties value_char) = false) ->
  (async_poll K T ble_device self).1 = self
  /\ (is_Ok (establish_connection T ble_device) ->
      (async_poll K T ble_device self).2 = Ok (_finish_update (sensor_data self))).
Proof.
  intros Hnoread.
  assert (Hone : forall characteristic s,
            (poll_characteristic K T characteristic s).1.2 = s.2).
  { intros characteristic [client self0]. unfold_poll.
    destruct (get_characteristic T client (uuid characteristic))
      as [[value_char |] | e] eqn:Hget; [| reflexivity | reflexivity].
    rewrite (Hnoread _ _ _ Hget).
    destruct (contains_str "indicate" (properties value_char));
      [destruct (start_notify T client (uuid characteristic)) as [client2 [[] | e]] |];
      try reflexivity;
      (destruct (contains_str "notify" (properties value_char));
       [destruct (start_notify T _ (uuid characteristic)) as [client3 r] |];
       reflexivity). }
  assert (Hall : forall l s, (after_characteristics K T l s).2 = s.2).
  { unfold after_characteristics.
    induction l as [|characteristic l IH]; intros s; [reflexivity |].
    cbn [foldl]. rewrite IH. apply Hone. }
  unfold async_poll.
  destruct (establish_connection T ble_device) as [client | e].
  - rewrite poll_services_run. cbn [fst snd].
    rewrite (Hall _ (client, self)). split; reflexivity.
  - split; [reflexivity |]. intros [c Hc]. discriminate Hc.
Qed.

Lemma poll_without_readable_witness :
  let c := battery_characteristic ["indicate"; "notify"] in
  (async_poll sample_const (table_transport [c; c] [c] (fun _ => Ok [x50])) ()
     (on_sensor_data (set_title "HX6340 EEFF") init)).1
  = on_sensor_data (set_title "HX6340 EEFF") init.
Proof.
  refine (proj1 (poll_without_readable sample_const
                   (table_transport
                      [battery_characteristic ["indicate"; "notify"];
                       battery_characteristic ["indicate"; "notify"]]
                      [battery_characteristic ["indicate"; "notify"]]
                      (fun _ => Ok [x50]))
                   () (on_sensor_data (set_title "HX6340 EEFF") init) _)).
  intros client characteristic_uuid value_char H.
  assert (Hfind : find (fun c => String.eqb (uuid c) characteristic_uuid)
                    [battery_characteristic ["indicate"; "notify"]] = Some value_char)
    by (injection H as H; exact H).
  apply find_some in Hfind as [Hin _].
  destruct Hin as [<- | []]. reflexivity.
Defined.
